(** * Reading-Tracker: analytics engine, badge evaluation and storage

    A shallow embedding of
      - [dateUtils] (heatmap, statistics, streaks; the module the components
        import as [utils/dateUtils], second part of [src/types/index.ts]),
      - [storageUtils] of [src/utils/storage.ts] (localStorage adapter,
        import and export),
      - the [badges] memo of [src/components/BadgeSystem.tsx],
    together with the few functions of date-fns and of the JavaScript host
    (JSON.parse, Math.round, Array.prototype.sort) these rely on. *)

From Stdlib Require Import Ascii.
From stdpp Require Import base numbers list strings gmap sorting pretty.

Open Scope Z_scope.

(** ** date-fns on calendar days

    A JavaScript [Date] is used by the code only through its local calendar
    day: every [Date] is formatted with ['yyyy-MM-dd'], shifted by whole
    days, or compared against the bounds of a week or a month.  A [Date] is
    therefore a day number: the number of days since 1970-01-01. *)

Module DateFns.

Definition Date : Type := Z.

(** Day-of-era to (year-of-era, month, day); the year starts in March so
    that the leap day is the last day of the year. *)
Definition civil_of_doe (doe : Z) : Z * Z * Z :=
  let yoe := (doe - doe / 1460 + doe / 36524 - doe / 146096) / 365 in
  let doy := doe - (365 * yoe + yoe / 4 - yoe / 100) in
  let mp := (5 * doy + 2) / 153 in
  let d := doy - (153 * mp + 2) / 5 + 1 in
  let m := if mp <? 10 then mp + 3 else mp - 9 in
  (yoe, m, d).

Definition doe_of_civil (yoe m d : Z) : Z :=
  let mp := if 2 <? m then m - 3 else m + 9 in
  let doy := (153 * mp + 2) / 5 + d - 1 in
  yoe * 365 + yoe / 4 - yoe / 100 + doy.

(** [getFullYear], [getMonth]+1 and [getDate] of a day (proleptic
    Gregorian calendar, eras of 400 years = 146097 days). *)
Definition civil_from_days (z : Date) : Z * Z * Z :=
  let z' := z + 719468 in
  let era := z' / 146097 in
  let '(yoe, m, d) := civil_of_doe (z' mod 146097) in
  (yoe + era * 400 + (if m <=? 2 then 1 else 0), m, d).

(** [new Date(y, m - 1, d)]. *)
Definition days_from_civil (y m d : Z) : Date :=
  let y' := y - (if m <=? 2 then 1 else 0) in
  let era := y' / 400 in
  era * 146097 + doe_of_civil (y' mod 400) m d - 719468.

Definition subDays (date : Date) (amount : Z) : Date := date - amount.

Definition differenceInDays (later earlier : Date) : Z := later - earlier.

(** [addLeadingZeros(number, targetLength)]. *)
Definition addLeadingZeros (number : Z) (targetLength : nat) : string :=
  let output := pretty (Z.abs number) in
  let zeros := String.string_of_list_ascii
                 (replicate (targetLength - String.length output) "0"%char) in
  (if number <? 0 then "-" else "") +:+ zeros +:+ output.

(** [format(date, 'yyyy-MM-dd')].  The [y] token prints years before 1 as
    [1 - year], as date-fns does. *)
Definition format_yyyy_MM_dd (date : Date) : string :=
  let '(y, m, d) := civil_from_days date in
  let year := if 0 <? y then y else 1 - y in
  addLeadingZeros year 4 +:+ "-" +:+ addLeadingZeros m 2
    +:+ "-" +:+ addLeadingZeros d 2.

Definition digit_of (c : ascii) : option Z :=
  let n := Z.of_N (Ascii.N_of_ascii c) in
  if (48 <=? n) && (n <=? 57) then Some (n - 48) else None.

Fixpoint digits_of (acc : Z) (s : list ascii) : option Z :=
  match s with
  | [] => Some acc
  | c :: s' =>
      match digit_of c with
      | Some k => digits_of (10 * acc + k) s'
      | None => None
      end
  end.

(** [parseISO] on the calendar-date form [YYYY-MM-DD], the format of
    [ReadingSession.date].  [None] is date-fns' Invalid Date: a string of
    another shape, or a day that does not exist (2024-02-30).  The other
    ISO 8601 forms date-fns accepts (time parts, week and ordinal dates)
    are not session dates and are not modelled. *)
Definition parseISO (s : string) : option Date :=
  match String.list_ascii_of_string s with
  | [y1; y2; y3; y4; "-"%char; m1; m2; "-"%char; d1; d2] =>
      match digits_of 0 [y1; y2; y3; y4], digits_of 0 [m1; m2],
            digits_of 0 [d1; d2] with
      | Some y, Some m, Some d =>
          let z := days_from_civil y m d in
          if bool_decide (civil_from_days z = (y, m, d)) then Some z else None
      | _, _, _ => None
      end
  | _ => None
  end.

(** Monday of the week of [date] ([startOfWeek] with [weekStartsOn: 1]);
    1970-01-01 was a Thursday. *)
Definition startOfWeek (date : Date) : Date := date - (date + 3) mod 7.
Definition endOfWeek (date : Date) : Date := startOfWeek date + 6.

Definition startOfMonth (date : Date) : Date :=
  let '(y, m, _) := civil_from_days date in days_from_civil y m 1.

Definition endOfMonth (date : Date) : Date :=
  let '(y, m, _) := civil_from_days date in
  (if m =? 12 then days_from_civil (y + 1) 1 1
   else days_from_civil y (m + 1) 1) - 1.

(** [isWithinInterval] between the first instant of day [start] and the
    last instant of day [end_]; an Invalid Date is in no interval. *)
Definition isWithinInterval (date : option Date) (start end_ : Date) : bool :=
  match date with
  | Some d => (start <=? d) && (d <=? end_)
  | None => false
  end.

(** The days on which a year has four digits: 0001-01-01 .. 9999-12-31. *)
Definition minDay : Date := Eval vm_compute in days_from_civil 1 1 1.
Definition maxDay : Date := Eval vm_compute in days_from_civil 9999 12 31.

End DateFns.

(** ** JSON documents and the host's JSON.parse *)

Module JSON.

(** A number keeps its decimal literal: [JNum m e] is [m * 10^e]. *)
#[warnings="-register-all"]
Inductive json : Type :=
| JNull
| JBool (b : bool)
| JNum (mantissa exponent : Z)
| JStr (s : string)
| JArr (elements : list json)
| JObj (members : list (string * json)).

(** [Array.isArray(v)]. *)
Definition isArray (v : json) : bool :=
  match v with JArr _ => true | _ => false end.

(** Own property of a parsed object; duplicate keys were resolved by the
    parser, so the first binding is the only one. *)
Fixpoint assoc (key : string) (members : list (string * json)) : option json :=
  match members with
  | [] => None
  | (k, v) :: rest => if bool_decide (k = key) then Some v else assoc key rest
  end.

(** A later duplicate key replaces the value and keeps the position. *)
Fixpoint assoc_set (key : string) (v : json) (members : list (string * json))
  : list (string * json) :=
  match members with
  | [] => [(key, v)]
  | (k, w) :: rest =>
      if bool_decide (k = key) then (k, v) :: rest
      else (k, w) :: assoc_set key v rest
  end.

Definition dquote : ascii := Ascii.ascii_of_N 34.
Definition code (c : ascii) : Z := Z.of_N (Ascii.N_of_ascii c).
Definition is_dquote (c : ascii) : bool := code c =? 34.
Definition is_ws (c : ascii) : bool :=
  (code c =? 32) || (code c =? 9) || (code c =? 10) || (code c =? 13).
Definition is_digit (c : ascii) : bool := (48 <=? code c) && (code c <=? 57).

Fixpoint skip_ws (s : list ascii) : list ascii :=
  match s with
  | c :: s' => if is_ws c then skip_ws s' else s
  | [] => []
  end.

Definition hex_of (c : ascii) : option Z :=
  let n := code c in
  if (48 <=? n) && (n <=? 57) then Some (n - 48)
  else if (65 <=? n) && (n <=? 70) then Some (n - 55)
  else if (97 <=? n) && (n <=? 102) then Some (n - 87)
  else None.

Definition byte (n : Z) : ascii := Ascii.ascii_of_N (Z.to_N n).

(** A code unit of a [\u] escape as UTF-8 bytes. *)
Definition utf8 (cp : Z) : list ascii :=
  if cp <? 128 then [byte cp]
  else if cp <? 2048 then [byte (192 + cp / 64); byte (128 + cp mod 64)]
  else [byte (224 + cp / 4096); byte (128 + (cp / 64) mod 64);
        byte (128 + cp mod 64)].

(** The characters of a string literal, after its opening quote. *)
Fixpoint parse_chars (s : list ascii) (acc : list ascii)
  : option (string * list ascii) :=
  match s with
  | [] => None
  | c :: s' =>
      if is_dquote c then Some (String.string_of_list_ascii (rev acc), s')
      else if code c =? 92 then
        match s' with
        | [] => None
        | e :: s'' =>
            if is_dquote e then parse_chars s'' (e :: acc)
            else
              match e with
              | "\"%char | "/"%char => parse_chars s'' (e :: acc)
              | "b"%char => parse_chars s'' (byte 8 :: acc)
              | "f"%char => parse_chars s'' (byte 12 :: acc)
              | "n"%char => parse_chars s'' (byte 10 :: acc)
              | "r"%char => parse_chars s'' (byte 13 :: acc)
              | "t"%char => parse_chars s'' (byte 9 :: acc)
              | "u"%char =>
                  match s'' with
                  | h1 :: h2 :: h3 :: h4 :: s3 =>
                      match hex_of h1, hex_of h2, hex_of h3, hex_of h4 with
                      | Some a, Some b, Some c', Some d =>
                          parse_chars s3
                            (rev (utf8 (((a * 16 + b) * 16 + c') * 16 + d)) ++ acc)
                      | _, _, _, _ => None
                      end
                  | _ => None
                  end
              | _ => None
              end
        end
      else if code c <? 32 then None
      else parse_chars s' (c :: acc)
  end.

Fixpoint span_digits (s : list ascii) : list ascii * list ascii :=
  match s with
  | c :: s' =>
      if is_digit c then let '(ds, r) := span_digits s' in (c :: ds, r)
      else ([], s)
  | [] => ([], [])
  end.

Definition digits_value (ds : list ascii) : Z :=
  foldl (fun acc c => 10 * acc + (code c - 48)) 0 ds.

(** [-? int frac? exp?] of the JSON grammar. *)
Definition parse_number (s : list ascii) : option (json * list ascii) :=
  let '(neg, s1) := match s with "-"%char :: r => (true, r) | _ => (false, s) end in
  let '(int, s2) := span_digits s1 in
  match int with
  | [] => None
  | d0 :: more =>
      if (code d0 =? 48) && negb (bool_decide (more = [])) then None
      else
        let '(frac, s3) :=
          match s2 with
          | "."%char :: r => let '(f, r') := span_digits r in (Some f, r')
          | _ => (None, s2)
          end in
        let '(ex, s4) :=
          match s3 with
          | "e"%char :: r | "E"%char :: r =>
              let '(sgn, r1) :=
                match r with
                | "-"%char :: r' => (-1, r')
                | "+"%char :: r' => (1, r')
                | _ => (1, r)
                end in
              let '(e, r2) := span_digits r1 in
              (Some (sgn, e), r2)
          | _ => (None, s3)
          end in
        if bool_decide (frac = Some []) then None
        else if bool_decide (snd <$> ex = Some []) then None
        else
          let f := default [] frac in
          let m := digits_value (int ++ f) in
          let e := match ex with
                   | Some (sgn, e) => sgn * digits_value e
                   | None => 0
                   end in
          Some (JNum (if neg then - m else m) (e - Z.of_nat (length f)), s4)
  end.

Fixpoint parse_value (fuel : nat) (s : list ascii) : option (json * list ascii) :=
  match fuel with
  | O => None
  | S fuel' =>
      match skip_ws s with
      | "n"%char :: "u"%char :: "l"%char :: "l"%char :: r => Some (JNull, r)
      | "t"%char :: "r"%char :: "u"%char :: "e"%char :: r => Some (JBool true, r)
      | "f"%char :: "a"%char :: "l"%char :: "s"%char :: "e"%char :: r =>
          Some (JBool false, r)
      | "["%char :: r =>
          match skip_ws r with
          | "]"%char :: r' => Some (JArr [], r')
          | _ => parse_elements fuel' r []
          end
      | "{"%char :: r =>
          match skip_ws r with
          | "}"%char :: r' => Some (JObj [], r')
          | _ => parse_members fuel' r []
          end
      | c :: r =>
          if is_dquote c then
            match parse_chars r [] with
            | Some (str, r') => Some (JStr str, r')
            | None => None
            end
          else parse_number (c :: r)
      | [] => None
      end
  end
with parse_elements (fuel : nat) (s : list ascii) (acc : list json)
  : option (json * list ascii) :=
  match fuel with
  | O => None
  | S fuel' =>
      match parse_value fuel' s with
      | Some (v, r) =>
          match skip_ws r with
          | ","%char :: r' => parse_elements fuel' r' (v :: acc)
          | "]"%char :: r' => Some (JArr (rev (v :: acc)), r')
          | _ => None
          end
      | None => None
      end
  end
with parse_members (fuel : nat) (s : list ascii) (acc : list (string * json))
  : option (json * list ascii) :=
  match fuel with
  | O => None
  | S fuel' =>
      match skip_ws s with
      | c :: r =>
          if is_dquote c then
            match parse_chars r [] with
            | Some (key, r1) =>
                match skip_ws r1 with
                | ":"%char :: r2 =>
                    match parse_value fuel' r2 with
                    | Some (v, r3) =>
                        match skip_ws r3 with
                        | ","%char :: r4 =>
                            parse_members fuel' r4 (assoc_set key v acc)
                        | "}"%char :: r4 => Some (JObj (assoc_set key v acc), r4)
                        | _ => None
                        end
                    | None => None
                    end
                | _ => None
                end
            | None => None
            end
          else None
      | [] => None
      end
  end.

(** [JSON.parse(text)]; [None] is a thrown SyntaxError. *)
Definition parse (text : string) : option json :=
  let s := String.list_ascii_of_string text in
  match parse_value (2 * length s + 2) s with
  | Some (v, r) => if bool_decide (skip_ws r = []) then Some v else None
  | None => None
  end.

(** A string between double quotes, to write JSON texts. *)
Definition q (s : string) : string :=
  String dquote (s +:+ String dquote "").

End JSON.

(** ** The data model ([src/types/index.ts]) *)

Inductive TimeSlot : Type := morning | afternoon | evening.

Module ReadingSession.
Record t : Type := mk {
  id : string;
  date : string;          (* YYYY-MM-DD *)
  timeSlot : TimeSlot;
  startTime : string;     (* HH:MM *)
  endTime : string;       (* HH:MM *)
  duration : Z;           (* total minutes *)
  content : string;
  notes : option string;
  createdAt : Z
}.
End ReadingSession.

Inductive BadgeType : Type := streak | time | content.

Module Badge.
Record t : Type := mk {
  id : string;
  name : string;
  description : string;
  icon : string;
  type : BadgeType;
  requirement : Z;
  unlocked : bool;
  unlockedAt : option Z
}.
End Badge.

Module UserStats.
Record t : Type := mk {
  totalSessions : Z;
  totalMinutes : Z;
  currentStreak : Z;
  longestStreak : Z;
  averageSessionDuration : Z;
  sessionsThisWeek : Z;
  sessionsThisMonth : Z;
  minutesThisWeek : Z;
  minutesThisMonth : Z
}.
End UserStats.

Module HeatmapData.
Record t : Type := mk {
  date : string;
  count : nat;
  level : nat    (* 0 | 1 | 2 | 3 | 4 | 5 *)
}.
End HeatmapData.

(** ** [dateUtils]

    Every function that reads the clock takes the current day as an
    argument; the several [new Date()] of one call are taken to fall on the
    same calendar day. *)

Module dateUtils.
Import DateFns.

(** [formatDate] on a [Date]. *)
Definition formatDate (date : Date) : string := format_yyyy_MM_dd date.

(** The [reduce] of [generateHeatmapData]: a counter per date string.
    [acc] is a plain object used as a dictionary; it is only ever read at
    keys produced by [formatDate], which are not names of
    [Object.prototype]. *)
Definition countSession (acc : gmap string nat) (session : ReadingSession.t)
  : gmap string nat :=
  let date := ReadingSession.date session in
  let acc :=
    match acc !! date with
    | None | Some O => <[date := O]> acc      (* if (!acc[date]) acc[date] = 0 *)
    | Some (S _) => acc
    end in
  <[date := S (default O (acc !! date))]> acc.  (* acc[date]++ *)

Definition sessionsByDate (sessions : list ReadingSession.t) : gmap string nat :=
  foldl countSession ∅ sessions.

(** The cascade that quantizes a count into a level. *)
Definition levelOf (count : nat) : nat :=
  if (3 <=? count)%nat then 5%nat
  else if (2 <=? count)%nat then 4%nat
  else if (1 <=? count)%nat then 3%nat
  else if (count =? 0)%nat then 0%nat
  else 0%nat.

Definition heatmapEntry (byDate : gmap string nat) (today : Date) (i : Z)
  : HeatmapData.t :=
  let date := subDays today i in
  let dateString := formatDate date in
  let count := default O (byDate !! dateString) in   (* sessionsByDate[dateString] || 0 *)
  HeatmapData.mk dateString count (levelOf count).

(** [for (let i = n - 1; i >= 0; i--) heatmapData.push(...)]. *)
Fixpoint heatmapLoop (byDate : gmap string nat) (today : Date) (n : nat)
  : list HeatmapData.t :=
  match n with
  | O => []
  | S i => heatmapEntry byDate today (Z.of_nat i) :: heatmapLoop byDate today i
  end.

(** [generateHeatmapData(sessions)], with [today = new Date()]. *)
Definition generateHeatmapData (today : Date) (sessions : list ReadingSession.t)
  : list HeatmapData.t :=
  heatmapLoop (sessionsByDate sessions) today 365.

(** The default comparison of [Array.prototype.sort] on strings:
    code units, lexicographically. *)
Definition string_le (a b : string) : Prop := String.leb a b.

#[export] Instance string_le_dec (a b : string) : Decision (string_le a b).
Proof. unfold string_le. apply _. Defined.

(** [[...new Set(l)]]: the distinct elements, each at its first
    occurrence. *)
Definition Set_values (l : list string) : list string :=
  reverse (remove_dups (reverse l)).

Definition uniqueDates (sessions : list ReadingSession.t) : list string :=
  merge_sort string_le (Set_values (ReadingSession.date <$> sessions)).

Definition includes (l : list string) (x : string) : bool := bool_decide (x ∈ l).

(** The [while (true)] walk of the current streak.  A date string is found
    at most once while the walked days print differently, so the walk
    leaves within [length uniqueDates + 1] rounds; [None] is a walk still
    running after [fuel] rounds. *)
Fixpoint walkBack (fuel : nat) (uniqueDates : list string) (checkDate : Date)
  (currentStreak : nat) : option nat :=
  match fuel with
  | O => None
  | S fuel' =>
      let dateString := formatDate checkDate in
      if includes uniqueDates dateString
      then walkBack fuel' uniqueDates (subDays checkDate 1) (S currentStreak)
      else Some currentStreak
  end.

Definition currentStreakOf (today : Date) (uniqueDates : list string) : option nat :=
  let yesterday := formatDate (subDays today 1) in
  if includes uniqueDates (formatDate today) || includes uniqueDates yesterday
  then walkBack (S (length uniqueDates)) uniqueDates today O
  else Some O.

(** [differenceInDays(parseISO(cur), parseISO(prev)) === 1]; the difference
    with an Invalid Date is NaN. *)
Definition daysDiffIsOne (prev cur : string) : bool :=
  match parseISO cur, parseISO prev with
  | Some currentDate, Some prevDate => differenceInDays currentDate prevDate =? 1
  | _, _ => false
  end.

(** Rounds [i >= 1] of the longest-streak loop; [prev] is
    [uniqueDates[i - 1]]. *)
Fixpoint longestLoop (prev : string) (rest : list string)
  (longestStreak tempStreak : nat) : nat * nat :=
  match rest with
  | [] => (longestStreak, tempStreak)
  | cur :: rest' =>
      if daysDiffIsOne prev cur
      then longestLoop cur rest' longestStreak (S tempStreak)
      else longestLoop cur rest' (Nat.max longestStreak tempStreak) 1%nat
  end.

Definition longestStreakOf (uniqueDates : list string) : nat :=
  match uniqueDates with
  | [] => Nat.max 0 0
  | first :: rest =>
      let '(longestStreak, tempStreak) := longestLoop first rest 0%nat 1%nat in
      Nat.max longestStreak tempStreak
  end.

Record Streaks : Type := mkStreaks { currentStreak : nat; longestStreak : nat }.

(** [calculateStreaks(sessions)], with [today = new Date()]. *)
Definition calculateStreaks (today : Date) (sessions : list ReadingSession.t)
  : option Streaks :=
  match sessions with
  | [] => Some (mkStreaks 0 0)
  | _ =>
      let dates := uniqueDates sessions in
      cur ← currentStreakOf today dates;
      Some (mkStreaks cur (longestStreakOf dates))
  end.

(** [Math.round(a / b)] for integers [a] and [b > 0]: the floor of
    [a / b + 1/2].  (The quotient is a double; for totals far below 2^52,
    as the minutes of a reading log are, it rounds as the exact quotient
    does.) *)
Definition Math_round_div (a b : Z) : Z := (2 * a + b) / (2 * b).

Definition sumDurations (sessions : list ReadingSession.t) : Z :=
  foldl (fun sum session => sum + ReadingSession.duration session) 0 sessions.

Definition within (start end_ : Date) (session : ReadingSession.t) : bool :=
  isWithinInterval (parseISO (ReadingSession.date session)) start end_.

(** [calculateStats(sessions)], with [now = new Date()]. *)
Definition calculateStats (now : Date) (sessions : list ReadingSession.t)
  : option UserStats.t :=
  let weekStart := startOfWeek now in
  let weekEnd := endOfWeek now in
  let monthStart := startOfMonth now in
  let monthEnd := endOfMonth now in
  let totalSessions := Z.of_nat (length sessions) in
  let totalMinutes := sumDurations sessions in
  let averageSessionDuration :=
    if 0 <? totalSessions then Math_round_div totalMinutes totalSessions else 0 in
  let sessionsThisWeek :=
    Z.of_nat (length (filter (fun s => within weekStart weekEnd s = true) sessions)) in
  let sessionsThisMonth :=
    Z.of_nat (length (filter (fun s => within monthStart monthEnd s = true) sessions)) in
  let minutesThisWeek :=
    sumDurations (filter (fun s => within weekStart weekEnd s = true) sessions) in
  let minutesThisMonth :=
    sumDurations (filter (fun s => within monthStart monthEnd s = true) sessions) in
  streaks ← calculateStreaks now sessions;
  Some {|
    UserStats.totalSessions := totalSessions;
    UserStats.totalMinutes := totalMinutes;
    UserStats.currentStreak := Z.of_nat (currentStreak streaks);
    UserStats.longestStreak := Z.of_nat (longestStreak streaks);
    UserStats.averageSessionDuration := averageSessionDuration;
    UserStats.sessionsThisWeek := sessionsThisWeek;
    UserStats.sessionsThisMonth := sessionsThisMonth;
    UserStats.minutesThisWeek := minutesThisWeek;
    UserStats.minutesThisMonth := minutesThisMonth
  |}.

End dateUtils.

(** ** [src/utils/storage.ts]

    [localStorage] maps keys to JSON texts.  The two collections are only
    written through [JSON.stringify], whose output [JSON.parse] reads back,
    so the store is modelled as the parsed document kept under each key.  A
    write is taken to succeed (a quota error is caught and logged by
    [saveSessions] and [saveBadges], and never reaches their caller). *)

Module storageUtils.
Import JSON.

Module STORAGE_KEYS.
Definition SESSIONS : string := "reading-tracker-sessions".
Definition BADGES : string := "reading-tracker-badges".
Definition LAST_SESSION_DATE : string := "reading-tracker-last-session-date".
End STORAGE_KEYS.

Abbreviation Storage := (gmap string json).

Definition saveSessions (sessions : json) (st : Storage) : Storage :=
  <[STORAGE_KEYS.SESSIONS := sessions]> st.

Definition loadSessions (st : Storage) : json :=
  default (JArr []) (st !! STORAGE_KEYS.SESSIONS).

Definition saveBadges (badges : json) (st : Storage) : Storage :=
  <[STORAGE_KEYS.BADGES := badges]> st.

Definition loadBadges (st : Storage) : json :=
  default (JArr []) (st !! STORAGE_KEYS.BADGES).

(** [v.key] on a value other than [null]; [None] is [undefined]. *)
Definition prop (v : json) (key : string) : option json :=
  match v with
  | JObj members => assoc key members
  | _ => None
  end.

(** [v === s] for a string [s]: only the same string is strictly equal. *)
Definition strictEqString (v : option json) (s : string) : bool :=
  match v with
  | Some (JStr s') => bool_decide (s' = s)
  | _ => false
  end.

(** The callback [s => s.id !== sessionId]; [None] is the TypeError of a
    property read on [null]. *)
Definition idDiffers (sessionId : string) (s : json) : option bool :=
  match s with
  | JNull => None
  | _ => Some (negb (strictEqString (prop s "id") sessionId))
  end.

(** [array.filter(callback)] with a callback that may throw. *)
Fixpoint filterThrowing (callback : json -> option bool) (l : list json)
  : option (list json) :=
  match l with
  | [] => Some []
  | x :: rest =>
      keep ← callback x;
      filtered ← filterThrowing callback rest;
      Some (if keep : bool then x :: filtered else filtered)
  end.

(** [deleteSession(sessionId)]; [None] is an exception that leaves the
    function (nothing is caught here), before any write. *)
Definition deleteSession (sessionId : string) (st : Storage) : option Storage :=
  match loadSessions st with
  | JArr sessions =>
      filtered ← filterThrowing (idDiffers sessionId) sessions;
      Some (saveSessions (JArr filtered) st)
  | _ => None
  end.

Section Import_.
(** The host's [JSON.parse]; [None] is a thrown SyntaxError. *)
Variable JSON_parse : string -> option json.

(** [importData(jsonData)]: the returned boolean and the store after
    the call. *)
Definition importData (jsonData : string) (st : Storage) : bool * Storage :=
  match JSON_parse jsonData with
  | None => (false, st)
  | Some JNull => (false, st)       (* data.sessions throws, caught *)
  | Some data =>
      let st :=
        match prop data "sessions" with
        | Some (JArr sessions) => saveSessions (JArr sessions) st
        | _ => st
        end in
      let st :=
        match prop data "badges" with
        | Some (JArr badges) => saveBadges (JArr badges) st
        | _ => st
        end in
      (true, st)
  end.
End Import_.

Definition timeSlotName (slot : TimeSlot) : string :=
  match slot with
  | morning => "morning" | afternoon => "afternoon" | evening => "evening"
  end.

(** A session as [JSON.stringify] writes it and [JSON.parse] reads it
    back; an absent [notes] is left out. *)
Definition sessionJSON (s : ReadingSession.t) : json :=
  JObj ([("id", JStr (ReadingSession.id s));
         ("date", JStr (ReadingSession.date s));
         ("timeSlot", JStr (timeSlotName (ReadingSession.timeSlot s)));
         ("startTime", JStr (ReadingSession.startTime s));
         ("endTime", JStr (ReadingSession.endTime s));
         ("duration", JNum (ReadingSession.duration s) 0);
         ("content", JStr (ReadingSession.content s))]
        ++ match ReadingSession.notes s with
           | Some n => [("notes", JStr n)]
           | None => []
           end
        ++ [("createdAt", JNum (ReadingSession.createdAt s) 0)]).

Definition sessionsJSON (sessions : list ReadingSession.t) : json :=
  JArr (sessionJSON <$> sessions).

End storageUtils.

(** ** The [badges] memo of [src/components/BadgeSystem.tsx] *)

Module BadgeSystem.

(** [Omit<Badge, 'unlocked' | 'unlockedAt'>]. *)
Record BadgeDef : Type := mkDef {
  id : string;
  name : string;
  description : string;
  icon : string;
  type : BadgeType;
  requirement : Z
}.

Definition BADGE_DEFINITIONS : list BadgeDef := [
  mkDef "streak-3" "Getting Started" "3-day reading streak" "flame" streak 3;
  mkDef "streak-7" "Week Warrior" "7-day reading streak" "flame" streak 7;
  mkDef "streak-30" "Monthly Master" "30-day reading streak" "flame" streak 30;
  mkDef "streak-100" "Century Club" "100-day reading streak" "trophy" streak 100;
  mkDef "time-300" "Dedicated Reader" "5 hours in a week" "clock" time 300;
  mkDef "time-600" "Bookworm" "10 hours in a week" "clock" time 600;
  mkDef "time-900" "Reading Machine" "15 hours in a week" "star" time 900;
  mkDef "time-1200" "Literary Legend" "20 hours in a week" "trophy" time 1200;
  mkDef "sessions-10" "First Steps" "10 reading sessions" "book-open" content 10;
  mkDef "sessions-50" "Consistent Reader" "50 reading sessions" "book-open" content 50;
  mkDef "sessions-100" "Century Reader" "100 reading sessions" "award" content 100;
  mkDef "sessions-250" "Reading Expert" "250 reading sessions" "trophy" content 250
].

(** [{ ...badgeDef, unlocked, unlockedAt }]. *)
Definition withState (badgeDef : BadgeDef) (unlocked : bool) (unlockedAt : option Z)
  : Badge.t :=
  Badge.mk (id badgeDef) (name badgeDef) (description badgeDef) (icon badgeDef)
    (type badgeDef) (requirement badgeDef) unlocked unlockedAt.

(** [new Map(existingBadges.map(b => [b.id, b]))]: a later entry with the
    same id replaces an earlier one. *)
Definition badgeMap (existingBadges : list Badge.t) : gmap string Badge.t :=
  foldl (fun m b => <[Badge.id b := b]> m) ∅ existingBadges.

(** The [switch] on the badge type. *)
Definition isUnlocked (stats : UserStats.t) (badgeDef : BadgeDef) : bool :=
  match type badgeDef with
  | streak => requirement badgeDef <=? UserStats.currentStreak stats
  | time => requirement badgeDef <=? UserStats.minutesThisWeek stats
  | content => requirement badgeDef <=? UserStats.totalSessions stats
  end.

(** The updater handed to [setNewBadges]. *)
Definition addNewBadge (newBadge : Badge.t) (prev : list Badge.t) : list Badge.t :=
  if bool_decide (Exists (fun b => Badge.id b = Badge.id newBadge) prev)
  then prev else prev ++ [newBadge].

(** The callback of [BADGE_DEFINITIONS.map]: the badge for one
    definition, and the [newBadges] state after the updaters queued so
    far.  [now] is [Date.now()], one value for the whole run of the memo. *)
Definition evaluateBadge (stats : UserStats.t) (now : Z)
  (existingBadges : list Badge.t) (newBadges : list Badge.t) (badgeDef : BadgeDef)
  : Badge.t * list Badge.t :=
  let existing := badgeMap existingBadges !! id badgeDef in
  let unlocked := isUnlocked stats badgeDef in
  if unlocked && negb (from_option Badge.unlocked false existing)
  then
    let newBadge := withState badgeDef true (Some now) in
    (newBadge, addNewBadge newBadge newBadges)
  else
    (default (withState badgeDef unlocked (if unlocked then Some now else None))
       existing,
     newBadges).

(** The memo over a list of definitions, threading [newBadges]. *)
Fixpoint evaluateAll (stats : UserStats.t) (now : Z) (existingBadges : list Badge.t)
  (newBadges : list Badge.t) (defs : list BadgeDef) : list Badge.t * list Badge.t :=
  match defs with
  | [] => ([], newBadges)
  | badgeDef :: rest =>
      let '(badge, newBadges) :=
        evaluateBadge stats now existingBadges newBadges badgeDef in
      let '(badges, newBadges) :=
        evaluateAll stats now existingBadges newBadges rest in
      (badge :: badges, newBadges)
  end.

(** [updatedBadges] (returned, and handed to [saveBadges]) and the
    [newBadges] state, from [existingBadges = loadBadges()]. *)
Definition badges (stats : UserStats.t) (now : Z) (existingBadges : list Badge.t)
  (newBadges : list Badge.t) : list Badge.t * list Badge.t :=
  evaluateAll stats now existingBadges newBadges BADGE_DEFINITIONS.


End BadgeSystem.

Import DateFns JSON dateUtils storageUtils.

(** ** Definitions used to state the properties *)

(** [f] holds on [z, z+1, ..., z+n-1]. *)
Fixpoint all_from (f : Z -> bool) (n : nat) (z : Z) : bool :=
  match n with
  | O => true
  | S n' => f z && all_from f n' (z + 1)
  end.

(** [addLeadingZeros n w] has [w] digits that read back as [n]. *)
Definition pad_ok (w : nat) (n : Z) : bool :=
  let s := String.list_ascii_of_string (addLeadingZeros n w) in
  bool_decide (length s = w) && bool_decide (digits_of 0 s = Some n).

(** The level the specification assigns to a count. *)
Definition specLevel (count : nat) : nat :=
  match count with
  | 0%nat => 0%nat
  | 1%nat => 3%nat
  | 2%nat => 4%nat
  | _ => 5%nat
  end.

(** The days of the window, oldest first. *)
Definition windowDays (today : Date) : list Date := seqZ (today - 364) 365.

Definition sessionsOn (d : string) (sessions : list ReadingSession.t)
  : list ReadingSession.t :=
  filter (fun s => ReadingSession.date s = d) sessions.

Definition entryOf (byDate : gmap string nat) (day : Date) : HeatmapData.t :=
  let count := default O (byDate !! formatDate day) in
  HeatmapData.mk (formatDate day) count (levelOf count).




(** A session of which only the date and the duration matter. *)
Definition sessionOn (date : string) (duration : Z) : ReadingSession.t :=
  ReadingSession.mk "" date morning "09:00" "10:00" duration "" None 0.

(** [r] is [a / b] rounded to the nearest integer, halves upwards:
    [r - 1/2 <= a / b < r + 1/2]. *)
Definition RoundedQuotient (a b r : Z) : Prop :=
  (2 * r - 1) * b <= 2 * a < (2 * r + 1) * b.


(** [v] is an array ([Array.isArray]). *)
Definition isArrayProp (v : option json) : bool :=
  match v with Some (JArr _) => true | _ => false end.

(** The shape the specification asks of an import: an object with a
    [sessions] array and a [badges] array. *)
Definition hasBothArrays (data : option json) : bool :=
  match data with
  | Some (JObj members) =>
      isArrayProp (assoc "sessions" members) && isArrayProp (assoc "badges" members)
  | _ => false
  end.

(** A JSON text with a [sessions] array and no [badges] key. *)
Definition sessionsOnlyText : string := "{" +:+ q "sessions" +:+ ":[]}".

Definition storeWithOneSession : Storage :=
  {[ STORAGE_KEYS.SESSIONS := sessionsJSON [sessionOn "2024-01-01" 30] ]}.

Import BadgeSystem.








(** * Proofs *)

(** ** The calendar *)

Lemma all_from_spec f n z :
  all_from f n z = true -> forall k, z <= k < z + Z.of_nat n -> f k = true.
Proof.
  revert z. induction n as [|n IH]; intros z H k Hk; [lia|].
  simpl in H. apply andb_prop in H as [Hz Hn].
  destruct (decide (k = z)) as [->|]; [done|].
  apply (IH (z + 1)); [done | lia].
Qed.

Lemma pad4_ok_all : all_from (pad_ok 4) (Z.to_nat 10000) 0 = true.
Proof. vm_cast_no_check (eq_refl true). Qed.

Lemma pad2_ok_all : all_from (pad_ok 2) (Z.to_nat 100) 0 = true.
Proof. vm_cast_no_check (eq_refl true). Qed.

(** A day of an era of 400 years and its year of era, month and day: the
    way back, and the ranges. *)
Lemma civil_of_doe_inv doe :
  0 <= doe < 146097 ->
  let '(yoe, m, d) := civil_of_doe doe in
  doe_of_civil yoe m d = doe /\ 0 <= yoe <= 399 /\ 1 <= m <= 12 /\ 1 <= d <= 31
  /\ (306 <= doe -> 1 <= yoe + (if m <=? 2 then 1 else 0))
  /\ (doe <= 146036 -> yoe + (if m <=? 2 then 1 else 0) <= 399).
Proof.
  intros H. unfold civil_of_doe, doe_of_civil. cbv zeta.
  set (yoe := (doe - doe / 1460 + doe / 36524 - doe / 146096) / 365).
  set (doy := doe - (365 * yoe + yoe / 4 - yoe / 100)).
  set (mp := (5 * doy + 2) / 153).
  assert (Hy : 0 <= yoe <= 399 /\ 0 <= doy <= 365).
  { subst doy yoe. Z.div_mod_to_equations. lia. }
  assert (Hmp : 0 <= mp <= 11) by (subst mp; Z.div_mod_to_equations; lia).
  assert (Hd : 1 <= doy - (153 * mp + 2) / 5 + 1 <= 31).
  { subst mp. Z.div_mod_to_equations. lia. }
  assert (Hlo : 306 <= doe -> 10 <= mp \/ 1 <= yoe).
  { subst mp doy yoe. Z.div_mod_to_equations. lia. }
  assert (Hhi : doe <= 146036 -> mp < 10 \/ yoe <= 398).
  { subst mp doy yoe. Z.div_mod_to_equations. lia. }
  assert (Hdoy : doy = doe - (365 * yoe + yoe / 4 - yoe / 100)) by reflexivity.
  clearbody mp doy yoe.
  destruct (mp <? 10) eqn:E1; [apply Z.ltb_lt in E1 | apply Z.ltb_ge in E1].
  - replace (2 <? mp + 3) with true by (symmetry; apply Z.ltb_lt; lia).
    replace (mp + 3 <=? 2) with false by (symmetry; apply Z.leb_gt; lia).
    replace (mp + 3 - 3) with mp by lia. lia.
  - replace (2 <? mp - 9) with false by (symmetry; apply Z.ltb_ge; lia).
    replace (mp - 9 <=? 2) with true by (symmetry; apply Z.leb_le; lia).
    replace (mp - 9 + 9) with mp by lia. lia.
Qed.

Lemma pad_ok_elim w n :
  pad_ok w n = true ->
  length (String.list_ascii_of_string (addLeadingZeros n w)) = w
  /\ digits_of 0 (String.list_ascii_of_string (addLeadingZeros n w)) = Some n.
Proof.
  unfold pad_ok. intros H. apply andb_prop in H as [H1 H2].
  split; [by apply bool_decide_eq_true in H1 | by apply bool_decide_eq_true in H2].
Qed.

(** The fields of a day, and the day of these fields. *)
Lemma civil_from_days_inv z :
  let '(y, m, d) := civil_from_days z in
  days_from_civil y m d = z /\ 1 <= m <= 12 /\ 1 <= d <= 31
  /\ (minDay <= z <= maxDay -> 1 <= y <= 9999).
Proof.
  unfold civil_from_days, days_from_civil, minDay, maxDay.
  remember (z + 719468) as z' eqn:Hz'.
  assert (Hd : 0 <= z' mod 146097 < 146097) by (apply Z.mod_pos_bound; lia).
  pose proof (civil_of_doe_inv _ Hd) as Hok.
  pose proof (Z.div_mod z' 146097 ltac:(lia)) as Hz.
  destruct (civil_of_doe (z' mod 146097)) as [[yoe m] d].
  destruct Hok as (Hback & Hyoe & Hm & Hday & Hlo & Hhi).
  assert (Hera : minDay <= z <= maxDay -> 0 <= z' / 146097 <= 24).
  { unfold minDay, maxDay. intros Hr.
    split; [apply Z.div_pos; lia|].
    enough (z' / 146097 < 25) by lia. apply Z.div_lt_upper_bound; lia. }
  unfold minDay, maxDay in Hera.
  replace (yoe + z' / 146097 * 400 + (if m <=? 2 then 1 else 0)
           - (if m <=? 2 then 1 else 0))
    with (yoe + z' / 146097 * 400) by lia.
  rewrite Z.div_add, Z.mod_add by lia.
  rewrite Z.div_small, Z.mod_small by lia.
  rewrite Hback. split; [lia|]. split; [done|]. split; [done|].
  intros Hr. specialize (Hera Hr).
  destruct (m <=? 2); lia.
Qed.

Lemma list_ascii_of_string_app (s1 s2 : string) :
  String.list_ascii_of_string (s1 +:+ s2)
  = String.list_ascii_of_string s1 ++ String.list_ascii_of_string s2.
Proof. induction s1 as [|c s1 IH]; simpl; [done | by rewrite IH]. Qed.

Lemma pad_ok_4 n : 0 <= n <= 9999 -> pad_ok 4 n = true.
Proof. intros H. apply (all_from_spec _ _ _ pad4_ok_all). lia. Qed.

Lemma pad_ok_2 n : 0 <= n <= 99 -> pad_ok 2 n = true.
Proof. intros H. apply (all_from_spec _ _ _ pad2_ok_all). lia. Qed.

(** On four-digit years [parseISO] reads back what [formatDate] prints. *)
Lemma parseISO_formatDate z :
  minDay <= z <= maxDay -> parseISO (formatDate z) = Some z.
Proof.
  intros Hr. unfold formatDate, format_yyyy_MM_dd, parseISO.
  pose proof (civil_from_days_inv z) as Hinv.
  destruct (civil_from_days z) as [[y m] d] eqn:Hc.
  destruct Hinv as (Hback & Hm & Hd & Hy). specialize (Hy Hr).
  replace (0 <? y) with true by (symmetry; apply Z.ltb_lt; lia).
  destruct (pad_ok_elim _ _ (pad_ok_4 y ltac:(lia))) as [Ly Dy].
  destruct (pad_ok_elim _ _ (pad_ok_2 m ltac:(lia))) as [Lm Dm].
  destruct (pad_ok_elim _ _ (pad_ok_2 d ltac:(lia))) as [Ld Dd].
  rewrite !list_ascii_of_string_app.
  destruct (String.list_ascii_of_string (addLeadingZeros y 4))
    as [|y1 [|y2 [|y3 [|y4 [|? ?]]]]]; try discriminate Ly.
  destruct (String.list_ascii_of_string (addLeadingZeros m 2))
    as [|m1 [|m2 [|? ?]]]; try discriminate Lm.
  destruct (String.list_ascii_of_string (addLeadingZeros d 2))
    as [|d1 [|d2 [|? ?]]]; try discriminate Ld.
  cbn [String.list_ascii_of_string app].
  rewrite Dy, Dm, Dd. cbn zeta. rewrite Hback, Hc.
  by rewrite bool_decide_eq_true_2.
Qed.

Lemma formatDate_inj z1 z2 :
  minDay <= z1 <= maxDay -> minDay <= z2 <= maxDay ->
  formatDate z1 = formatDate z2 -> z1 = z2.
Proof.
  intros H1 H2 Heq. apply parseISO_formatDate in H1, H2.
  rewrite Heq in H1. congruence.
Qed.

(** ** The heatmap *)

Lemma levelOf_specLevel count : levelOf count = specLevel count.
Proof. by destruct count as [|[|[|n]]]. Qed.

Lemma levelOf_not_1_2 count : levelOf count <> 1%nat /\ levelOf count <> 2%nat.
Proof. by destruct count as [|[|[|n]]]. Qed.

Lemma heatmapLoop_fmap byDate today n :
  heatmapLoop byDate today n
  = entryOf byDate <$> seqZ (today - Z.of_nat n + 1) (Z.of_nat n).
Proof.
  induction n as [|n IH]; [done|].
  rewrite seqZ_cons by lia. rewrite fmap_cons.
  change (heatmapLoop byDate today (S n))
    with (heatmapEntry byDate today (Z.of_nat n) :: heatmapLoop byDate today n).
  f_equal.
  - unfold heatmapEntry, entryOf, subDays.
    replace (today - Z.of_nat (S n) + 1) with (today - Z.of_nat n) by lia.
    reflexivity.
  - rewrite IH. f_equal; f_equal; lia.
Qed.

Lemma generateHeatmapData_fmap today sessions :
  generateHeatmapData today sessions
  = entryOf (sessionsByDate sessions) <$> windowDays today.
Proof.
  unfold generateHeatmapData, windowDays. rewrite heatmapLoop_fmap.
  f_equal. f_equal; lia.
Qed.

Lemma heatmap_dates today sessions :
  HeatmapData.date <$> generateHeatmapData today sessions
  = formatDate <$> windowDays today.
Proof. rewrite generateHeatmapData_fmap, <- list_fmap_compose. reflexivity. Qed.

Lemma countSession_lookup acc s d :
  default O (countSession acc s !! d)
  = (default O (acc !! d) + if bool_decide (ReadingSession.date s = d) then 1 else 0)%nat.
Proof.
  unfold countSession. set (k := ReadingSession.date s).
  set (acc1 := match acc !! k with
               | None | Some O => <[k := O]> acc
               | Some (S _) => acc
               end).
  assert (H1 : forall d', default O (acc1 !! d') = default O (acc !! d')).
  { intros d'. subst acc1. destruct (acc !! k) as [[|n]|] eqn:Hk; [|done|].
    - destruct (decide (k = d')) as [<-|]; [by rewrite lookup_insert_eq, Hk|].
      by rewrite lookup_insert_ne.
    - destruct (decide (k = d')) as [<-|]; [by rewrite lookup_insert_eq, Hk|].
      by rewrite lookup_insert_ne. }
  case_bool_decide as Hd.
  - subst d. rewrite lookup_insert_eq. simpl. rewrite H1. lia.
  - rewrite lookup_insert_ne by done. rewrite H1. lia.
Qed.

Lemma foldl_countSession_lookup sessions acc d :
  default O (foldl countSession acc sessions !! d)
  = (default O (acc !! d) + length (sessionsOn d sessions))%nat.
Proof.
  revert acc. induction sessions as [|s sessions IH]; intros acc; simpl.
  - unfold sessionsOn. simpl. lia.
  - rewrite IH, countSession_lookup. unfold sessionsOn.
    rewrite filter_cons. case_bool_decide; case_decide; simpl; done || lia.
Qed.

Lemma sessionsByDate_lookup sessions d :
  default O (sessionsByDate sessions !! d) = length (sessionsOn d sessions).
Proof.
  unfold sessionsByDate. rewrite foldl_countSession_lookup, lookup_empty. done.
Qed.

Lemma window_in_range today k :
  minDay + 364 <= today <= maxDay -> k ∈ windowDays today -> minDay <= k <= maxDay.
Proof. unfold windowDays. rewrite elem_of_seqZ. lia. Qed.

Lemma window_dates_NoDup today :
  minDay + 364 <= today <= maxDay -> NoDup (formatDate <$> windowDays today).
Proof.
  intros Hr. apply NoDup_fmap_2_strong; [|apply NoDup_seqZ].
  intros a b Ha Hb. apply formatDate_inj; by eapply window_in_range.
Qed.

(** Sessions counted date by date, over distinct dates, are the sessions
    whose date is one of them. *)
Lemma sum_sessionsOn (ds : list string) sessions :
  NoDup ds ->
  sum_list ((fun d => length (sessionsOn d sessions)) <$> ds)
  = length (filter (fun s => ReadingSession.date s ∈ ds) sessions).
Proof.
  intros Hnd. induction sessions as [|s sessions IH].
  - clear Hnd. induction ds as [|d ds IHd]; [done|].
    rewrite fmap_cons. simpl in *. exact IHd.
  - rewrite filter_cons.
    assert (Hstep : sum_list ((fun d => length (sessionsOn d (s :: sessions))) <$> ds)
      = ((if bool_decide (ReadingSession.date s ∈ ds) then 1 else 0)
         + sum_list ((fun d => length (sessionsOn d sessions)) <$> ds))%nat).
    { clear IH. induction Hnd as [|d ds Hd Hnd IHd]; [done|].
      cbn [fmap list_fmap sum_list sum_list_with]. rewrite IHd.
      unfold sessionsOn at 1. rewrite filter_cons.
      fold (sessionsOn d sessions).
      destruct (decide (ReadingSession.date s = d)) as [Heq|Hne].
      - subst d. rewrite (bool_decide_eq_true_2 (_ ∈ _ :: _)) by left.
        rewrite (bool_decide_eq_false_2 (_ ∈ ds)) by done. simpl. lia.
      - destruct (decide (ReadingSession.date s ∈ ds)) as [Hin|Hnin].
        + rewrite (bool_decide_eq_true_2 (_ ∈ _ :: _)) by (by right).
          rewrite (bool_decide_eq_true_2 (_ ∈ ds)) by done. lia.
        + rewrite (bool_decide_eq_false_2 (_ ∈ _ :: _))
            by (intros [?|?]%elem_of_cons; done).
          rewrite (bool_decide_eq_false_2 (_ ∈ ds)) by done. lia. }
    rewrite Hstep, IH. case_bool_decide; case_decide; simpl; done || lia.
Qed.

(** C4. Heatmap quantization: every entry of the generated heatmap has the
    level its count is assigned by the thresholds
    0 -> 0, 1 -> 3, 2 -> 4, 3 or more -> 5; levels 1 and 2 are never
    produced. *)
Theorem C4_heatmap_quantization today sessions :
  Forall (fun e => HeatmapData.level e = specLevel (HeatmapData.count e)
                   /\ HeatmapData.level e <> 1%nat /\ HeatmapData.level e <> 2%nat)
    (generateHeatmapData today sessions).
Proof.
  rewrite generateHeatmapData_fmap, Forall_fmap. apply Forall_forall.
  intros day _. unfold entryOf. cbn.
  split; [apply levelOf_specLevel | apply levelOf_not_1_2].
Qed.

(** On four-digit years, consecutive entries of the heatmap are one
    calendar day apart. *)
Lemma heatmap_consecutive today sessions (i : nat) e1 e2 :
  minDay + 364 <= today <= maxDay ->
  generateHeatmapData today sessions !! i = Some e1 ->
  generateHeatmapData today sessions !! S i = Some e2 ->
  exists d, parseISO (HeatmapData.date e1) = Some d
            /\ parseISO (HeatmapData.date e2) = Some (d + 1).
Proof.
  intros Hr. rewrite generateHeatmapData_fmap, !list_lookup_fmap.
  unfold windowDays. intros H1 H2.
  apply fmap_Some in H1 as (d1 & E1 & ->), H2 as (d2 & E2 & ->).
  apply lookup_seqZ in E1 as [-> ?], E2 as [-> ?].
  exists (today - 364 + Z.of_nat i). unfold entryOf. cbn [HeatmapData.date].
  rewrite !parseISO_formatDate by (unfold minDay, maxDay in *; lia).
  split; [done | f_equal; lia].
Qed.

(** C5. Heatmap window shape: the generated heatmap has exactly 365
    entries, their dates are the consecutive calendar days
    today-364, today-363, ..., today in this order, and the last entry is
    the reference date; on four-digit years each entry's date reads back as
    the day after the date of the entry before it. *)
Theorem C5_heatmap_window today sessions :
  let h := generateHeatmapData today sessions in
  length h = 365%nat
  /\ HeatmapData.date <$> h = formatDate <$> seqZ (today - 364) 365
  /\ last (HeatmapData.date <$> h) = Some (formatDate today)
  /\ (minDay + 364 <= today <= maxDay ->
      forall (i : nat) e1 e2,
        h !! i = Some e1 -> h !! S i = Some e2 ->
        exists d, parseISO (HeatmapData.date e1) = Some d
                  /\ parseISO (HeatmapData.date e2) = Some (d + 1)).
Proof.
  cbv zeta. rewrite heatmap_dates. split; [|split; [done|split]].
  - rewrite generateHeatmapData_fmap, length_fmap.
    unfold windowDays. by rewrite length_seqZ.
  - unfold windowDays.
    change 365 with (Z.of_nat (S 364)). rewrite seqZ_S, fmap_app.
    rewrite (fmap_cons formatDate), fmap_nil, last_snoc.
    do 2 f_equal. lia.
  - intros Hr i e1 e2. by apply heatmap_consecutive.
Qed.

Lemma C5_heatmap_window_witness :
  minDay + 364 <= 19724 <= maxDay
  /\ length (generateHeatmapData 19724 [sessionOn "2024-01-02" 45]) = 365%nat
  /\ last (HeatmapData.date <$> generateHeatmapData 19724 [sessionOn "2024-01-02" 45])
     = Some "2024-01-02".
Proof.
  assert (H : minDay + 364 <= 19724 <= maxDay) by (vm_compute; split; discriminate).
  split; [exact H|].
  destruct (C5_heatmap_window 19724 [sessionOn "2024-01-02" 45])
    as (Hlen & _ & Hlast & _).
  split; [exact Hlen | exact Hlast].
Defined.

(** C9. Heatmap count conservation: the counts of the heatmap add up to
    the number of sessions dated on one of the days of the window; there is
    one entry per date, and its count is the number of sessions of that
    date. *)
Theorem C9_heatmap_count_conservation today sessions :
  minDay + 364 <= today <= maxDay ->
  let h := generateHeatmapData today sessions in
  sum_list (HeatmapData.count <$> h)
  = length (filter (fun s => ReadingSession.date s ∈ (formatDate <$> windowDays today))
              sessions)
  /\ NoDup (HeatmapData.date <$> h)
  /\ Forall (fun e => HeatmapData.count e
                      = length (sessionsOn (HeatmapData.date e) sessions)) h.
Proof.
  intros Hr. cbv zeta. rewrite heatmap_dates. split; [|split].
  - rewrite <- sum_sessionsOn by by apply window_dates_NoDup.
    rewrite generateHeatmapData_fmap, <- !list_fmap_compose.
    f_equal. apply list_fmap_ext. intros _ day _. cbn.
    apply sessionsByDate_lookup.
  - by apply window_dates_NoDup.
  - rewrite generateHeatmapData_fmap, Forall_fmap. apply Forall_forall.
    intros day _. cbn. apply sessionsByDate_lookup.
Qed.

(** ** Streaks *)









#[local] Instance string_le_total : Total string_le.
Proof.
  intros a b. unfold string_le. destruct (String.leb_total a b) as [H|H];
    rewrite H; [left | right]; exact I.
Qed.

Lemma uniqueDates_elem sessions d :
  d ∈ uniqueDates sessions <-> d ∈ ReadingSession.date <$> sessions.
Proof.
  unfold uniqueDates, Set_values.
  by rewrite merge_sort_Permutation, elem_of_reverse, elem_of_remove_dups,
    elem_of_reverse.
Qed.




(** The walk returns the number of days, counted back from where it
    starts, that all have a session. *)
Lemma walkBack_Some fuel : forall dates day acc k,
  walkBack fuel dates day acc = Some k ->
  exists j : nat, k = (acc + j)%nat
    /\ (forall i : nat, (i < j)%nat -> formatDate (day - Z.of_nat i) ∈ dates)
    /\ formatDate (day - Z.of_nat j) ∉ dates.
Proof.
  induction fuel as [|fuel IH]; intros dates day acc k H; [done|].
  simpl in H. unfold includes in H. case_bool_decide as Hin.
  - apply IH in H as (j & -> & Hall & Hout). exists (S j).
    split; [lia|]. unfold subDays in *. split.
    + intros [|i] Hi.
      * by replace (day - Z.of_nat 0) with day by lia.
      * replace (day - Z.of_nat (S i)) with (day - 1 - Z.of_nat i) by lia.
        apply Hall. lia.
    + by replace (day - Z.of_nat (S j)) with (day - 1 - Z.of_nat j) by lia.
  - injection H as <-. exists O. split; [lia|]. split; [lia|].
    by replace (day - Z.of_nat 0) with day by lia.
Qed.



(** The current streak is the number of consecutive days with a session,
    counted back from today; it is 0 as soon as today has none. *)
Lemma currentStreakOf_walk today dates k :
  currentStreakOf today dates = Some k ->
  (forall i : nat, (i < k)%nat -> formatDate (today - Z.of_nat i) ∈ dates)
  /\ formatDate (today - Z.of_nat k) ∉ dates.
Proof.
  unfold currentStreakOf. destruct (_ || _) eqn:Hguard.
  - intros H. apply walkBack_Some in H as (j & -> & Hall & Hout). done.
  - intros [= <-]. apply orb_false_elim in Hguard as [Ht _].
    unfold includes in Ht. apply bool_decide_eq_false in Ht.
    split; [lia|]. by replace (today - Z.of_nat 0) with today by lia.
Qed.

Lemma currentStreakOf_without_today today dates :
  formatDate today ∉ dates -> currentStreakOf today dates = Some O.
Proof.
  intros Hout. unfold currentStreakOf. destruct (_ || _); [|done].
  simpl. unfold includes. by rewrite bool_decide_eq_false_2.
Qed.

Lemma calculateStreaks_without_today today sessions :
  formatDate today ∉ ReadingSession.date <$> sessions ->
  exists r, calculateStreaks today sessions = Some r /\ currentStreak r = O.
Proof.
  intros Hout. destruct sessions as [|s sessions]; [by eexists|].
  unfold calculateStreaks.
  rewrite currentStreakOf_without_today by (by rewrite uniqueDates_elem).
  by eexists.
Qed.



Lemma RoundedQuotient_unique a b r1 r2 :
  0 < b -> RoundedQuotient a b r1 -> RoundedQuotient a b r2 -> r1 = r2.
Proof. unfold RoundedQuotient. intros Hb H1 H2. nia. Qed.

(** C1. Current streak, grace period.  Today is 2024-01-03 and the only
    sessions are on 2024-01-02 and 2024-01-01: the guard lets the walk
    start (yesterday has a session), the walk starts at today, finds no
    session and stops at once, so the current streak is 0, not the 2 of the
    grace period. *)
Theorem C1_grace_period_not_granted :
  formatDate 19725 = "2024-01-03"
  /\ formatDate (subDays 19725 1) = "2024-01-02"
  /\ calculateStreaks 19725 [sessionOn "2024-01-02" 30; sessionOn "2024-01-01" 30]
     = Some (mkStreaks 0 2).
Proof. vm_compute. done. Qed.

(** With a session today the same history counts three days. *)
Example current_streak_with_today :
  calculateStreaks 19725
    [sessionOn "2024-01-03" 30; sessionOn "2024-01-02" 30; sessionOn "2024-01-01" 30]
  = Some (mkStreaks 3 3).
Proof. vm_compute. done. Qed.





(** The scenario of the specification: two sessions of 30 and 45 minutes on
    2024-01-01 and 2024-01-02, seen on 2024-01-02. *)
Example stats_scenario :
  calculateStats 19724 [sessionOn "2024-01-01" 30; sessionOn "2024-01-02" 45]
  = Some (UserStats.mk 2 75 2 2 38 2 2 75 75).
Proof. vm_compute. done. Qed.

(** ** Storage *)

Lemma idDiffers_sessionJSON sessionId s :
  idDiffers sessionId (sessionJSON s)
  = Some (negb (bool_decide (ReadingSession.id s = sessionId))).
Proof. reflexivity. Qed.

Lemma filterThrowing_sessions sessionId sessions :
  filterThrowing (idDiffers sessionId) (sessionJSON <$> sessions)
  = Some (sessionJSON <$> filter (fun s => ReadingSession.id s <> sessionId) sessions).
Proof.
  induction sessions as [|s sessions IH]; [done|].
  rewrite fmap_cons. cbn [filterThrowing].
  rewrite idDiffers_sessionJSON, IH. cbn [mbind option_bind].
  rewrite filter_cons. case_bool_decide; case_decide; done.
Qed.

(** On an array without [null] elements [deleteSession] keeps, in order,
    the elements whose [id] is not the given string. *)
Lemma deleteSession_array sessionId st (l : list json) :
  loadSessions st = JArr l -> Forall (fun v => v <> JNull) l ->
  deleteSession sessionId st
  = Some (saveSessions
            (JArr (filter (fun v => strictEqString (prop v "id") sessionId = false) l))
            st).
Proof.
  intros Hload Hnn. unfold deleteSession. rewrite Hload.
  assert (H : filterThrowing (idDiffers sessionId) l
              = Some (filter (fun v => strictEqString (prop v "id") sessionId = false) l)).
  { clear Hload. induction Hnn as [|v l Hv Hl IH]; [done|].
    cbn [filterThrowing]. rewrite IH, filter_cons.
    destruct v; [by destruct Hv|..];
      cbn [idDiffers mbind option_bind];
      destruct (strictEqString _ _); cbn [negb]; case_decide; done. }
  by rewrite H.
Qed.

(** C10. Delete frame property: when the stored sessions are [sessions],
    [deleteSession] returns, the stored sessions are then those of
    [sessions] whose id is not the given one, unchanged and in their order,
    and every other key of the store is untouched; when no session has the
    id, the stored collection is the same as before. *)
Theorem C10_delete_frame st sessionId sessions :
  loadSessions st = sessionsJSON sessions ->
  exists st',
    deleteSession sessionId st = Some st'
    /\ loadSessions st'
       = sessionsJSON (filter (fun s => ReadingSession.id s <> sessionId) sessions)
    /\ (forall key, key <> STORAGE_KEYS.SESSIONS -> st' !! key = st !! key)
    /\ (Forall (fun s => ReadingSession.id s <> sessionId) sessions ->
        loadSessions st' = loadSessions st
        /\ (is_Some (st !! STORAGE_KEYS.SESSIONS) -> st' = st)).
Proof.
  intros Hload. unfold deleteSession. rewrite Hload. unfold sessionsJSON.
  rewrite filterThrowing_sessions. cbn [mbind option_bind].
  eexists. split; [done|]. split; [|split].
  - unfold loadSessions, saveSessions. by rewrite lookup_insert_eq.
  - intros key Hkey. unfold saveSessions. by rewrite lookup_insert_ne.
  - intros Hall.
    assert (Hf : filter (fun s => ReadingSession.id s <> sessionId) sessions = sessions).
    { clear Hload. induction Hall as [|s l Hs Hl IH]; [done|].
      rewrite filter_cons, decide_True by done. by rewrite IH. }
    rewrite Hf. split.
    + unfold loadSessions at 1, saveSessions. by rewrite lookup_insert_eq.
    + intros [v Hv]. unfold saveSessions. apply insert_id.
      unfold loadSessions in Hload. rewrite Hv in Hload. simpl in Hload.
      by rewrite Hv, Hload.
Qed.

Lemma C10_delete_frame_witness :
  loadSessions storeWithOneSession = sessionsJSON [sessionOn "2024-01-01" 30]
  /\ exists st',
      deleteSession "" storeWithOneSession = Some st'
      /\ loadSessions st' = sessionsJSON [].
Proof.
  assert (H : loadSessions storeWithOneSession
              = sessionsJSON [sessionOn "2024-01-01" 30]) by reflexivity.
  split; [exact H|].
  destruct (C10_delete_frame storeWithOneSession "" _ H) as (st' & Hd & Hl & _).
  exists st'. split; [exact Hd | exact Hl].
Defined.

(** C2, as the specification states it, fails: the text
    [{ sessions: [] }] has no [badges] key, yet [importData] returns [true]
    and replaces the stored sessions. *)
Lemma C2_import_not_all_or_nothing :
  JSON.parse sessionsOnlyText = Some (JObj [("sessions", JArr [])])
  /\ hasBothArrays (JSON.parse sessionsOnlyText) = false
  /\ importData JSON.parse sessionsOnlyText storeWithOneSession
     = (true, saveSessions (JArr []) storeWithOneSession)
  /\ loadSessions (saveSessions (JArr []) storeWithOneSession)
     <> loadSessions storeWithOneSession.
Proof.
  split; [by vm_compute|]. split; [by vm_compute|]. split.
  - unfold importData.
    replace (JSON.parse sessionsOnlyText) with (Some (JObj [("sessions", JArr [])]))
      by (by vm_compute).
    reflexivity.
  - unfold loadSessions, saveSessions, storeWithOneSession.
    rewrite lookup_insert_eq, lookup_singleton_eq. discriminate.
Qed.

(** C2, amended.  Whatever [JSON.parse] is: [importData] returns [false]
    and leaves the store as it was exactly when the text does not parse or
    parses to [null]; otherwise it returns [true], and each collection is
    written on its own: the sessions when [data.sessions] is an array, the
    badges when [data.badges] is an array, and nothing else is written. *)
Theorem C2_import_each_collection_alone
  (JSON_parse : string -> option json) jsonData (st : Storage) :
  match JSON_parse jsonData with
  | None | Some JNull => importData JSON_parse jsonData st = (false, st)
  | Some data =>
      exists st',
        importData JSON_parse jsonData st = (true, st')
        /\ st' !! STORAGE_KEYS.SESSIONS
           = (if isArrayProp (prop data "sessions") then prop data "sessions"
              else st !! STORAGE_KEYS.SESSIONS)
        /\ st' !! STORAGE_KEYS.BADGES
           = (if isArrayProp (prop data "badges") then prop data "badges"
              else st !! STORAGE_KEYS.BADGES)
        /\ (forall key, key <> STORAGE_KEYS.SESSIONS -> key <> STORAGE_KEYS.BADGES ->
                        st' !! key = st !! key)
        /\ (hasBothArrays (Some data) = true ->
            st' = saveBadges (default JNull (prop data "badges"))
                    (saveSessions (default JNull (prop data "sessions")) st))
  end.
Proof.
  unfold importData.
  destruct (JSON_parse jsonData) as [data|]; [|done].
  assert (Hne : STORAGE_KEYS.BADGES <> STORAGE_KEYS.SESSIONS) by done.
  destruct data as [|b|m e|s|l|members]; [done|..];
    try (eexists; split; [reflexivity|]; cbn; repeat split; done).
  eexists. split; [reflexivity|]. cbn [prop hasBothArrays].
  destruct (assoc "sessions" members) as [[| | | |ls|]|];
    destruct (assoc "badges" members) as [[| | | |lb|]|];
    cbn [isArrayProp andb default]; unfold saveSessions, saveBadges;
    repeat split; try done;
    intros;
    repeat (rewrite lookup_insert_eq || rewrite lookup_insert_ne by done); done.
Qed.

(** ** Badges *)
























Lemma C9_heatmap_count_conservation_witness :
  minDay + 364 <= 19724 <= maxDay
  /\ sum_list (HeatmapData.count
                 <$> generateHeatmapData 19724
                       [sessionOn "2024-01-01" 30; sessionOn "2024-01-02" 45;
                        sessionOn "2020-05-05" 10])
     = 2%nat.
Proof.
  assert (H : minDay + 364 <= 19724 <= maxDay) by (vm_compute; split; discriminate).
  split; [exact H|].
  pose proof (proj1 (C9_heatmap_count_conservation 19724
                       [sessionOn "2024-01-01" 30; sessionOn "2024-01-02" 45;
                        sessionOn "2020-05-05" 10] H)) as Hsum.
  cbv zeta in Hsum. rewrite Hsum. by vm_compute.
Defined.

